(** * FindShops: the search-and-browse page of the business directory

    A shallow embedding of [src/pages/FindShops.tsx].  The page keeps six
    state slots, loads the category names once, re-fetches the businesses
    whenever a filter changes, and renders one of three views.

    The two asynchronous functions are cut at their single [await]: the part
    before it runs when the function is called and leaves a request in
    flight, the part after it runs when the request settles.  Every call that
    is visible from outside the component (state setters, [console.error],
    [toast], requests) is appended to a chronological log. *)

From Stdlib Require Import PrimFloat.
From Stdlib Require Import String Ascii List Bool Arith Lia.
Import ListNotations.
Local Open Scope string_scope.
Local Open Scope list_scope.

(** ** Data *)

(** [interface Business], lines 11-28.  Optional fields are [option];
    [rating] is a JavaScript number, a binary64 float. *)
Module Business.
Record t : Type := mk {
  id : string;
  name : string;
  description : option string;
  category : string;
  address : option string;
  city : option string;
  state : option string;
  zip_code : option string;
  phone : option string;
  email : option string;
  website : option string;
  image_url : option string;
  rating : PrimFloat.float;
  owner_id : string;
  created_at : string;
  updated_at : string
}.
End Business.

(** A row of [business_categories] as selected on line 57: [{ name: string }]. *)
Module CategoryRow.
Record t : Type := mk { name : string }.
End CategoryRow.

(** A value that is thrown, or that the client reports in [error]. *)
Inductive js_error : Type :=
| JsError (message : string).

(** What the client resolves to: [{ data, error }], each possibly [null]. *)
Record response (A : Type) : Type := mkResponse {
  data : option A;
  error : option js_error
}.
Arguments mkResponse {A} _ _.
Arguments data {A} _.
Arguments error {A} _.

(** How an awaited request settles. *)
Inductive outcome (A : Type) : Type :=
| Fulfilled (r : response A)
| Rejected (e : js_error).
Arguments Fulfilled {A} _.
Arguments Rejected {A} _.

(** ** The query builder *)

(** Modelled from the spec: the data store client is a collaborator outside
    this repository (section 6: select-all-columns, equality filter,
    logical-OR composition of filter clauses, ascending/descending ordering).
    A query is the record of the builder calls made on it, in call order;
    [order] without options sorts ascending (section 4.1). *)
Module supabase.

Inductive clause : Type :=
| Or (filters : string)
| Eq (column value : string).

Record query : Type := mkQuery {
  table : string;
  columns : option string;
  ordering : list (string * bool);
  filters : list clause
}.

Definition from (t : string) : query :=
  {| table := t; columns := None; ordering := []; filters := [] |}.

Definition select (cols : string) (q : query) : query :=
  {| table := table q; columns := Some cols;
     ordering := ordering q; filters := filters q |}.

Definition order (column : string) (ascending : option bool) (q : query) : query :=
  {| table := table q; columns := columns q;
     ordering := ordering q ++
                 [(column, match ascending with Some a => a | None => true end)];
     filters := filters q |}.

Definition or_ (fs : string) (q : query) : query :=
  {| table := table q; columns := columns q;
     ordering := ordering q; filters := filters q ++ [Or fs] |}.

Definition eq_ (column value : string) (q : query) : query :=
  {| table := table q; columns := columns q;
     ordering := ordering q; filters := filters q ++ [Eq column value] |}.

End supabase.
Import supabase.

(** ** Component state and the world around it *)

(** The six [useState] slots, lines 31-36. *)
Record PageState : Type := mkPage {
  businesses : list Business.t;
  categories : list string;
  loading : bool;
  searchTerm : string;
  selectedCategory : string;
  locationFilter : string
}.

(** The argument of [toast], lines 101-105. *)
Record toast_options : Type := mkToast {
  title : string;
  toast_description : string;
  variant : string
}.

(** Calls observable from outside the component, in the order they happen;
    [Request q] is the query [q] being awaited. *)
Inductive effect : Type :=
| SetBusinesses (l : list Business.t)
| SetCategories (l : list string)
| SetLoading (b : bool)
| ConsoleError (msg : string) (e : js_error)
| Toast (o : toast_options)
| Request (q : query).

(** An asynchronous function suspended at its [await]. *)
Inductive pending : Type :=
| AwaitCategories
| AwaitBusinesses.

Record world : Type := mkWorld {
  page : PageState;
  log : list effect;
  inflight : list pending
}.

(** ** A state-and-exception monad for the bodies of the handlers *)

Definition M (A : Type) : Type := world -> (js_error + A) * world.

Definition ret {A : Type} (a : A) : M A := fun w => (inr a, w).

Definition bind {A B : Type} (m : M A) (k : A -> M B) : M B :=
  fun w => match m w with
           | (inl e, w') => (inl e, w')
           | (inr a, w') => k a w'
           end.

Definition throw {A : Type} (e : js_error) : M A := fun w => (inl e, w).

(** [try { body } catch (e) { handler e }] *)
Definition try_catch {A : Type} (body : M A) (handler : js_error -> M A) : M A :=
  fun w => match body w with
           | (inl e, w') => handler e w'
           | (inr a, w') => (inr a, w')
           end.

(** [... finally { cleanup }]: the cleanup runs on both exits. *)
Definition finally {A : Type} (body : M A) (cleanup : M unit) : M A :=
  fun w => match body w with
           | (r, w') => match cleanup w' with
                        | (inl e, w'') => (inl e, w'')
                        | (inr _, w'') => (r, w'')
                        end
           end.

Notation "x <- m ;; k" := (bind m (fun x => k))
  (at level 61, m at next level, right associativity).
Notation "m ;; k" := (bind m (fun _ => k))
  (at level 61, right associativity).

(** Running a handler to its end; what it returns or throws is dropped, as
    nothing awaits the promises of the two asynchronous functions. *)
Definition exec (m : M unit) (w : world) : world := snd (m w).

Definition emit (e : effect) : M unit :=
  fun w => (inr tt, {| page := page w; log := log w ++ [e]; inflight := inflight w |}).

Definition modify (f : PageState -> PageState) : M unit :=
  fun w => (inr tt, {| page := f (page w); log := log w; inflight := inflight w |}).

Definition setBusinesses (l : list Business.t) : M unit :=
  emit (SetBusinesses l) ;;
  modify (fun p => mkPage l (categories p) (loading p)
                          (searchTerm p) (selectedCategory p) (locationFilter p)).

Definition setCategories (l : list string) : M unit :=
  emit (SetCategories l) ;;
  modify (fun p => mkPage (businesses p) l (loading p)
                          (searchTerm p) (selectedCategory p) (locationFilter p)).

Definition setLoading (b : bool) : M unit :=
  emit (SetLoading b) ;;
  modify (fun p => mkPage (businesses p) (categories p) b
                          (searchTerm p) (selectedCategory p) (locationFilter p)).

Definition setSearchTerm (s : string) : M unit :=
  modify (fun p => mkPage (businesses p) (categories p) (loading p)
                          s (selectedCategory p) (locationFilter p)).

Definition setSelectedCategory (c : string) : M unit :=
  modify (fun p => mkPage (businesses p) (categories p) (loading p)
                          (searchTerm p) c (locationFilter p)).

Definition setLocationFilter (l : string) : M unit :=
  modify (fun p => mkPage (businesses p) (categories p) (loading p)
                          (searchTerm p) (selectedCategory p) l).

Definition console_error (msg : string) (e : js_error) : M unit :=
  emit (ConsoleError msg e).

Definition toast (o : toast_options) : M unit := emit (Toast o).

(** [await query]: the query is handed to the client and the function is
    parked until the request settles. *)
Definition await (k : pending) (q : query) : M unit :=
  emit (Request q) ;;
  fun w => (inr tt, {| page := page w; log := log w; inflight := inflight w ++ [k] |}).

(** The value of an awaited request once it has settled. *)
Definition settled {A : Type} (o : outcome A) : M (response A) :=
  match o with
  | Fulfilled r => ret r
  | Rejected e => throw e
  end.

(** JavaScript truthiness of a string: every string but the empty one. *)
Definition truthy (s : string) : bool := negb (s =? "").

(** ** Sample data

    A small directory, a two-entry synonym dictionary and a few worlds, on
    which the properties below are instantiated. *)

Definition coffee_shop : Business.t :=
  Business.mk "b1" "Bean There" (Some "Coffee and cakes") "restaurant"
              None (Some "Austin") (Some "TX") None None None None None
              4.5%float "u1" "2024-01-01" "2024-01-02".

Definition bakery : Business.t :=
  Business.mk "b2" "Rise" None "bakery"
              None (Some "Dallas") (Some "TX") None None None None None
              4%float "u2" "2024-02-01" "2024-02-02".

Definition sample_expand (s : string) : list string :=
  if s =? "coffee" then ["coffee"; "cafe"] else [s].

Definition sample_normalize (c : string) : string :=
  if c =? "Restaurants" then "restaurant" else c.

(** The user has typed a search text; nothing is in flight. *)
Definition coffee_world : world :=
  {| page := mkPage [] ["Restaurants"] false "coffee" "all" "";
     log := []; inflight := [] |}.

(** All filters are back at their defaults while an old result is shown. *)
Definition cleared_world : world :=
  {| page := mkPage [bakery] ["Restaurants"] true "" "all" "";
     log := []; inflight := [] |}.

(** All three filters are set. *)
Definition austin_world : world :=
  {| page := mkPage [] [] false "coffee" "Restaurants" "Austin";
     log := []; inflight := [] |}.



(** A business fetch is in flight behind the category fetch, over an old
    result. *)
Definition fetching_world : world :=
  {| page := mkPage [bakery] [] true "coffee" "all" "";
     log := []; inflight := [AwaitCategories; AwaitBusinesses] |}.

(** ** The component *)

Section FindShops.

(** The two utilities imported on line 9 from [@/utils/synonymDictionary];
    the page treats them as pure functions. *)
Variable expandSearchTerms : string -> list string.
Variable normalizeCategoryName : string -> string.

(** The [useState] initial values, lines 31-36; nothing has been called yet
    and nothing is in flight. *)
Definition initial_page : PageState :=
  {| businesses := []; categories := []; loading := true;
     searchTerm := ""; selectedCategory := "all"; locationFilter := "" |}.

Definition initial_world : world :=
  {| page := initial_page; log := []; inflight := [] |}.

(** *** fetchCategories, lines 53-65 *)

Definition categories_query : query :=
  order "name" None (select "name" (from "business_categories")).

(** Up to the [await] on line 55. *)
Definition fetchCategories_start : M unit :=
  await AwaitCategories categories_query.

(** From the [await] on: lines 60-64. *)
Definition fetchCategories_resume (o : outcome (list CategoryRow.t)) : M unit :=
  try_catch
    (r <- settled o ;;
     match error r with Some e => throw e | None => ret tt end ;;
     setCategories (match data r with
                    | Some rows => map CategoryRow.name rows
                    | None => []
                    end))
    (fun e => console_error "Error fetching categories:" e).

(** *** fetchBusinesses, lines 67-109 *)

(** The template literal of line 79. *)
Definition search_term_clause (term : string) : string :=
  "name.ilike.%" ++ term ++ "%,description.ilike.%" ++ term ++
  "%,products_catalog.ilike.%" ++ term ++ "%".

(** Lines 77-80: [expandedTerms.map(...).join(',')]. *)
Definition searchQuery (s : string) : string :=
  let expandedTerms := expandSearchTerms s in
  String.concat "," (map search_term_clause expandedTerms).

(** The template literal of line 92. *)
Definition location_clause (l : string) : string :=
  "city.ilike.%" ++ l ++ "%,state.ilike.%" ++ l ++ "%".

(** Lines 70-93: the query as it stands when it is awaited. *)
Definition business_query (p : PageState) : query :=
  let query := order "rating" (Some false) (select "*" (from "businesses")) in
  let query := if truthy (searchTerm p)
               then or_ (searchQuery (searchTerm p)) query
               else query in
  let query := if negb (selectedCategory p =? "all")
               then let normalizedCategory :=
                      normalizeCategoryName (selectedCategory p) in
                    eq_ "category" normalizedCategory query
               else query in
  let query := if truthy (locationFilter p)
               then or_ (location_clause (locationFilter p)) query
               else query in
  query.

(** Lines 68-95, up to the [await]; the filters are those of the render
    whose effect called the function. *)
Definition fetchBusinesses_start : M unit :=
  setLoading true ;;
  fun w => await AwaitBusinesses (business_query (page w)) w.

Definition fetch_error_toast : toast_options :=
  {| title := "Error";
     toast_description := "Failed to fetch businesses. Please try again.";
     variant := "destructive" |}.

(** From the [await] on: lines 95-108. *)
Definition fetchBusinesses_resume (o : outcome (list Business.t)) : M unit :=
  finally
    (try_catch
       (r <- settled o ;;
        match error r with Some e => throw e | None => ret tt end ;;
        setBusinesses (match data r with Some rows => rows | None => [] end))
       (fun e =>
          console_error "Error fetching businesses:" e ;;
          toast fetch_error_toast))
    (setLoading false).

(** *** The two effects, lines 39-51 *)

Definition mount_effect : M unit := fetchCategories_start.

Definition filter_effect : M unit :=
  fun w =>
    let p := page w in
    (if truthy (searchTerm p) || negb (selectedCategory p =? "all")
        || truthy (locationFilter p)
     then fetchBusinesses_start
     else setBusinesses [] ;; setLoading false) w.

(** *** The renderer, lines 138-158 *)

Inductive vnode : Type :=
| BusinessSkeleton (key : nat)
| PopularBusinessCard (key : string) (business : Business.t)
| EmptyState (primary secondary : string).

Definition render_results (p : PageState) : list vnode :=
  if loading p then
    map BusinessSkeleton (seq 0 6)
  else if (0 <? List.length (businesses p))%nat then
    map (fun business => PopularBusinessCard (Business.id business) business)
        (businesses p)
  else
    [EmptyState "No businesses found matching your criteria."
                "Try adjusting your search filters or browse all categories."].

(** *** The life of a mounted page *)

(** After the first render both effects run, in source order. *)
Definition mount : world := exec (mount_effect ;; filter_effect) initial_world.

Inductive reply : Type :=
| CategoriesReply (o : outcome (list CategoryRow.t))
| BusinessesReply (o : outcome (list Business.t)).

(** What can happen to a mounted page: the filter control calls one of the
    three callbacks of lines 132-134, or the [n]-th request in flight
    settles. *)
Inductive event : Type :=
| SearchChange (s : string)
| CategoryChange (c : string)
| LocationChange (l : string)
| Settled (n : nat) (r : reply).

Fixpoint remove_nth {A : Type} (n : nat) (l : list A) : list A :=
  match n, l with
  | _, [] => []
  | O, _ :: l' => l'
  | S n', x :: l' => x :: remove_nth n' l'
  end.

Definition unpark (n : nat) : M unit :=
  fun w => (inr tt, {| page := page w; log := log w;
                       inflight := remove_nth n (inflight w) |}).

(** A setter called with the value the slot already holds causes no render;
    otherwise the page renders again and, one of its dependencies having
    changed, the filter effect runs. *)
Definition step (w : world) (ev : event) : world :=
  match ev with
  | SearchChange s =>
      if s =? searchTerm (page w) then w
      else exec (setSearchTerm s ;; filter_effect) w
  | CategoryChange c =>
      if c =? selectedCategory (page w) then w
      else exec (setSelectedCategory c ;; filter_effect) w
  | LocationChange l =>
      if l =? locationFilter (page w) then w
      else exec (setLocationFilter l ;; filter_effect) w
  | Settled n r =>
      match nth_error (inflight w) n, r with
      | Some AwaitCategories, CategoriesReply o =>
          exec (unpark n ;; fetchCategories_resume o) w
      | Some AwaitBusinesses, BusinessesReply o =>
          exec (unpark n ;; fetchBusinesses_resume o) w
      | _, _ => w
      end
  end.

Definition run (evs : list event) : world := fold_left step evs mount.

(** The error a settled request makes the function throw, if any. *)
Definition failure {A : Type} (o : outcome A) : option js_error :=
  match o with
  | Rejected e => Some e
  | Fulfilled r => error r
  end.

(** *** Reading a query *)

(** What a single filter of a request means for a row is the store's
    business. *)
Variable holds : clause -> Business.t -> bool.

(** Modelled from the spec: the store, which is outside this repository,
    applies every filter chained on a request to a row and returns the rows
    that pass all of them (section 4.2: all present clauses are combined
    with logical AND). *)
Definition selects (q : query) (b : Business.t) : bool :=
  forallb (fun f => holds f b) (filters q).

(** The search clause the way the spec words it: one condition per
    expanded term and per field, all of them alternatives of one
    disjunction. *)
Inductive condition : Type :=
| Ilike (column pattern : string).

Definition render_condition (c : condition) : string :=
  match c with
  | Ilike column pattern => column ++ ".ilike." ++ pattern
  end.

Definition render_disjunction (cs : list condition) : string :=
  String.concat "," (map render_condition cs).





(** *** Reading a clause text back *)


(** The items of a text between its commas. *)
Fixpoint split_commas (s : string) : list string :=
  match s with
  | "" => [""]
  | String c s' =>
      if (c =? ",")%char then "" :: split_commas s'
      else match split_commas s' with
           | [] => [String c ""]
           | item :: items => String c item :: items
           end
  end.





(** *** The clauses of the business query, one group per filter *)

Definition search_filters (p : PageState) : list clause :=
  if truthy (searchTerm p) then [Or (searchQuery (searchTerm p))] else [].

Definition category_filters (p : PageState) : list clause :=
  if negb (selectedCategory p =? "all")
  then [Eq "category" (normalizeCategoryName (selectedCategory p))] else [].

Definition location_filters (p : PageState) : list clause :=
  if truthy (locationFilter p) then [Or (location_clause (locationFilter p))] else [].

(** Whether the filter effect fetches: the condition of line 45. *)
Definition filtering (p : PageState) : bool :=
  truthy (searchTerm p) || negb (selectedCategory p =? "all")
  || truthy (locationFilter p).

(** *** Reading the log *)

Definition requests (l : list effect) : list query :=
  flat_map (fun e => match e with Request q => [q] | _ => [] end) l.

Definition toasts (l : list effect) : list toast_options :=
  flat_map (fun e => match e with Toast o => [o] | _ => [] end) l.

Definition category_requests (l : list effect) : list query :=
  List.filter (fun q => table q =? "business_categories") (requests l).

Definition eq_filters (l : list clause) : list clause :=
  List.filter (fun f => match f with Eq _ _ => true | Or _ => false end) l.

Definition pending_eq_dec (a b : pending) : {a = b} + {a <> b}.
Proof. decide equality. Defined.

(** How many category fetches are parked. *)
Definition parked_categories (w : world) : nat :=
  count_occ pending_eq_dec (inflight w) AwaitCategories.

(** Every request the page sends is one of the two it builds. *)
Definition built_by_page (e : effect) : Prop :=
  match e with
  | Request q => q = categories_query \/ exists p, q = business_query p
  | _ => True
  end.

(** What holds of a mounted page whatever happened to it. *)
Record invariant (w : world) : Prop := mkInvariant {
  inv_once : category_requests (log w) = [categories_query];
  inv_parked : parked_categories w <= 1;
  inv_empty : parked_categories w = 1 -> categories (page w) = [];
  inv_built : Forall built_by_page (log w)
}.

(** *** The page between two events *)

Definition business_requests (l : list effect) : list query :=
  List.filter (fun q => table q =? "businesses") (requests l).

(** How many business fetches are parked. *)
Definition parked_businesses (w : world) : nat :=
  count_occ pending_eq_dec (inflight w) AwaitBusinesses.

(** The page a callback of lines 132-134 leaves behind: the state setter
    it is bound to overwrites its slot. *)
Definition after_callback (ev : event) (p : PageState) : PageState :=
  match ev with
  | SearchChange s =>
      mkPage (businesses p) (categories p) (loading p)
             s (selectedCategory p) (locationFilter p)
  | CategoryChange c =>
      mkPage (businesses p) (categories p) (loading p)
             (searchTerm p) c (locationFilter p)
  | LocationChange l =>
      mkPage (businesses p) (categories p) (loading p)
             (searchTerm p) (selectedCategory p) l
  | Settled _ _ => p
  end.

(** The dependency array of line 51. *)
Definition filter_values (p : PageState) : string * string * string :=
  (searchTerm p, selectedCategory p, locationFilter p).

(** The [key] attribute of a rendered node, lines 142 and 146. *)
Definition vnode_key (v : vnode) : option (nat + string) :=
  match v with
  | BusinessSkeleton key => Some (inl key)
  | PopularBusinessCard key _ => Some (inr key)
  | EmptyState _ _ => None
  end.

(** All a step can do to the world, one case per path through the
    handlers. *)
Inductive transition (w : world) : world -> Prop :=
| t_idle : transition w w
| t_fetch (p : PageState) :
    businesses p = businesses (page w) ->
    categories p = categories (page w) ->
    transition w
      {| page := mkPage (businesses p) (categories p) true
                        (searchTerm p) (selectedCategory p) (locationFilter p);
         log := log w ++ [SetLoading true; Request (business_query p)];
         inflight := inflight w ++ [AwaitBusinesses] |}
| t_clear (p : PageState) :
    categories p = categories (page w) ->
    transition w
      {| page := mkPage [] (categories p) false
                        (searchTerm p) (selectedCategory p) (locationFilter p);
         log := log w ++ [SetBusinesses []; SetLoading false];
         inflight := inflight w |}
| t_categories_failed (n : nat) (e : js_error) :
    nth_error (inflight w) n = Some AwaitCategories ->
    transition w
      {| page := page w;
         log := log w ++ [ConsoleError "Error fetching categories:" e];
         inflight := remove_nth n (inflight w) |}
| t_categories_stored (n : nat) (names : list string) :
    nth_error (inflight w) n = Some AwaitCategories ->
    transition w
      {| page := mkPage (businesses (page w)) names (loading (page w))
                        (searchTerm (page w)) (selectedCategory (page w))
                        (locationFilter (page w));
         log := log w ++ [SetCategories names];
         inflight := remove_nth n (inflight w) |}
| t_businesses_failed (n : nat) (e : js_error) :
    nth_error (inflight w) n = Some AwaitBusinesses ->
    transition w
      {| page := mkPage (businesses (page w)) (categories (page w)) false
                        (searchTerm (page w)) (selectedCategory (page w))
                        (locationFilter (page w));
         log := log w ++ [ConsoleError "Error fetching businesses:" e;
                          Toast fetch_error_toast; SetLoading false];
         inflight := remove_nth n (inflight w) |}
| t_businesses_stored (n : nat) (rows : list Business.t) :
    nth_error (inflight w) n = Some AwaitBusinesses ->
    transition w
      {| page := mkPage rows (categories (page w)) false
                        (searchTerm (page w)) (selectedCategory (page w))
                        (locationFilter (page w));
         log := log w ++ [SetBusinesses rows; SetLoading false];
         inflight := remove_nth n (inflight w) |}.

(** The two ends of a category fetch as they show in the log: the list is
    stored (line 61) or the failure is logged (line 63). *)
Definition is_category_store (e : effect) : bool :=
  match e with SetCategories _ => true | _ => false end.

Definition is_category_failure (e : effect) : bool :=
  match e with
  | ConsoleError msg _ => msg =? "Error fetching categories:"
  | _ => false
  end.

Definition category_outcomes (w : world) : nat :=
  List.length (List.filter is_category_store (log w)) +
  List.length (List.filter is_category_failure (log w)).

(** How the loading flag and the notifications relate to the fetches. *)
Record accounting (w : world) : Prop := mkAccounting {
  acc_loading : loading (page w) = true -> 1 <= parked_businesses w;
  acc_toasts :
    List.length (toasts (log w)) + parked_businesses w <=
    List.length (business_requests (log w))
}.

(** ** Proof automation *)

(** Unfolds the monad and the setters and normalises the log. *)
Ltac run_handler :=
  unfold exec, finally, try_catch, settled, setBusinesses, setCategories,
    setLoading, setSearchTerm, setSelectedCategory, setLocationFilter,
    console_error, toast, await, unpark, bind, ret, throw, emit, modify;
  cbn [fst snd page log inflight businesses categories loading searchTerm
       selectedCategory locationFilter error data];
  rewrite <- ?app_assoc; cbn [app].

(** Rewrites the step taken from a world that is written out, the
    innermost one of a run. *)
Ltac on_literal_world lem :=
  match goal with
  | |- context [step (mkWorld ?p ?l ?i) ?ev] => rewrite (lem (mkWorld p l i) ev)
  end.

(** ** Strings built by concatenation *)

Lemma append_assoc (a b c : string) : ((a ++ b) ++ c = a ++ (b ++ c))%string.
Proof.
  induction a as [|ch a IH]; simpl; [reflexivity | now rewrite IH].
Qed.











Lemma truthy_true (s : string) : truthy s = true <-> s <> "".
Proof.
  unfold truthy. rewrite negb_true_iff. apply String.eqb_neq.
Qed.

Lemma truthy_false (s : string) : truthy s = false <-> s = "".
Proof.
  unfold truthy. rewrite negb_false_iff. apply String.eqb_eq.
Qed.

(** ** Reading a clause text back *)


Lemma split_commas_nonempty (s : string) : split_commas s <> [].
Proof.
  destruct s as [|c s]; simpl; [discriminate|].
  destruct (c =? ",")%char; [discriminate|].
  destruct (split_commas s); discriminate.
Qed.







(** ** The filters of the business query *)

Lemma business_query_filters (p : PageState) :
  filters (business_query p) =
  search_filters p ++ category_filters p ++ location_filters p.
Proof.
  unfold business_query, search_filters, category_filters, location_filters.
  destruct (truthy (searchTerm p)), (negb (selectedCategory p =? "all")),
    (truthy (locationFilter p)); reflexivity.
Qed.

Lemma business_query_head (p : PageState) :
  table (business_query p) = "businesses" /\
  columns (business_query p) = Some "*" /\
  ordering (business_query p) = [("rating", false)].
Proof.
  unfold business_query.
  destruct (truthy (searchTerm p)), (negb (selectedCategory p =? "all")),
    (truthy (locationFilter p)); repeat split.
Qed.

(** ** What each handler does to the world *)

Lemma fetchBusinesses_start_world (w : world) :
  exec fetchBusinesses_start w =
  {| page := mkPage (businesses (page w)) (categories (page w)) true
                    (searchTerm (page w)) (selectedCategory (page w))
                    (locationFilter (page w));
     log := log w ++ [SetLoading true; Request (business_query (page w))];
     inflight := inflight w ++ [AwaitBusinesses] |}.
Proof.
  unfold fetchBusinesses_start. run_handler. reflexivity.
Qed.

Lemma clear_results_world (w : world) :
  exec (setBusinesses [] ;; setLoading false) w =
  {| page := mkPage [] (categories (page w)) false
                    (searchTerm (page w)) (selectedCategory (page w))
                    (locationFilter (page w));
     log := log w ++ [SetBusinesses []; SetLoading false];
     inflight := inflight w |}.
Proof.
  run_handler. reflexivity.
Qed.

Lemma filtering_default (p : PageState) :
  searchTerm p = "" -> selectedCategory p = "all" -> locationFilter p = "" ->
  filtering p = false.
Proof.
  intros Hs Hc Hl. unfold filtering. now rewrite Hs, Hc, Hl.
Qed.

Lemma filter_effect_world (w : world) :
  exec filter_effect w =
  if filtering (page w) then exec fetchBusinesses_start w
  else exec (setBusinesses [] ;; setLoading false) w.
Proof.
  unfold exec at 1, filter_effect, filtering.
  destruct (truthy (searchTerm (page w)) || negb (selectedCategory (page w) =? "all")
            || truthy (locationFilter (page w))); reflexivity.
Qed.

Lemma fetchBusinesses_resume_failure (o : outcome (list Business.t))
      (e : js_error) (w : world) :
  failure o = Some e ->
  exec (fetchBusinesses_resume o) w =
  {| page := mkPage (businesses (page w)) (categories (page w)) false
                    (searchTerm (page w)) (selectedCategory (page w))
                    (locationFilter (page w));
     log := log w ++ [ConsoleError "Error fetching businesses:" e;
                      Toast fetch_error_toast; SetLoading false];
     inflight := inflight w |}.
Proof.
  intros F. unfold fetchBusinesses_resume.
  destruct o as [[d err] | e']; simpl in F; subst; try injection F as ->;
    run_handler; reflexivity.
Qed.

Lemma fetchBusinesses_resume_success (r : response (list Business.t))
      (w : world) :
  error r = None ->
  exec (fetchBusinesses_resume (Fulfilled r)) w =
  let rows := match data r with Some rows => rows | None => [] end in
  {| page := mkPage rows (categories (page w)) false
                    (searchTerm (page w)) (selectedCategory (page w))
                    (locationFilter (page w));
     log := log w ++ [SetBusinesses rows; SetLoading false];
     inflight := inflight w |}.
Proof.
  intros E. unfold fetchBusinesses_resume. destruct r as [d err].
  simpl in E. subst err. run_handler. reflexivity.
Qed.

Lemma fetchCategories_start_world (w : world) :
  exec fetchCategories_start w =
  {| page := page w;
     log := log w ++ [Request categories_query];
     inflight := inflight w ++ [AwaitCategories] |}.
Proof.
  unfold fetchCategories_start. run_handler. reflexivity.
Qed.

Lemma fetchCategories_resume_failure (o : outcome (list CategoryRow.t))
      (e : js_error) (w : world) :
  failure o = Some e ->
  exec (fetchCategories_resume o) w =
  {| page := page w;
     log := log w ++ [ConsoleError "Error fetching categories:" e];
     inflight := inflight w |}.
Proof.
  intros F. unfold fetchCategories_resume.
  destruct o as [[d err] | e']; simpl in F; subst; try injection F as ->;
    run_handler; reflexivity.
Qed.

Lemma fetchCategories_resume_success (r : response (list CategoryRow.t))
      (w : world) :
  error r = None ->
  exec (fetchCategories_resume (Fulfilled r)) w =
  let names := match data r with
               | Some rows => map CategoryRow.name rows
               | None => []
               end in
  {| page := mkPage (businesses (page w)) names (loading (page w))
                    (searchTerm (page w)) (selectedCategory (page w))
                    (locationFilter (page w));
     log := log w ++ [SetCategories names];
     inflight := inflight w |}.
Proof.
  intros E. unfold fetchCategories_resume. destruct r as [d err].
  simpl in E. subst err. run_handler. reflexivity.
Qed.

(** Sequencing at the top level is running one handler after the other, as
    long as the first one does not throw. *)
Lemma exec_seq (m k : M unit) (w : world) :
  fst (m w) = inr tt -> exec (m ;; k) w = exec k (exec m w).
Proof.
  unfold exec, bind. destruct (m w) as [[e | []] w']; simpl; [discriminate | reflexivity].
Qed.

Lemma requests_app (l1 l2 : list effect) :
  requests (l1 ++ l2) = requests l1 ++ requests l2.
Proof. apply flat_map_app. Qed.

Lemma toasts_app (l1 l2 : list effect) :
  toasts (l1 ++ l2) = toasts l1 ++ toasts l2.
Proof. apply flat_map_app. Qed.

Lemma category_requests_app (l1 l2 : list effect) :
  category_requests (l1 ++ l2) = category_requests l1 ++ category_requests l2.
Proof.
  unfold category_requests. now rewrite requests_app, filter_app.
Qed.

Lemma business_query_not_category (p : PageState) :
  (table (business_query p) =? "business_categories") = false.
Proof.
  destruct (business_query_head p) as [-> _]. reflexivity.
Qed.

Lemma remove_nth_count {A : Type} (dec : forall a b : A, {a = b} + {a <> b})
      (l : list A) (n : nat) (x y : A) :
  nth_error l n = Some x ->
  count_occ dec l y =
  (if dec x y then 1 else 0) + count_occ dec (remove_nth n l) y.
Proof.
  revert n. induction l as [|a l IH]; intros [|n] H; simpl in H; try discriminate.
  - injection H as ->. simpl. destruct (dec x y); reflexivity.
  - simpl. rewrite (IH n H). destruct (dec a y), (dec x y); lia.
Qed.

Lemma failure_none {A : Type} (o : outcome A) :
  failure o = None -> exists r, o = Fulfilled r /\ error r = None.
Proof.
  destruct o as [r | e]; simpl; [eauto | discriminate].
Qed.

(** *** The steps, one kind at a time *)

Lemma step_settle_businesses (w : world) (n : nat) (o : outcome (list Business.t)) :
  nth_error (inflight w) n = Some AwaitBusinesses ->
  step w (Settled n (BusinessesReply o)) =
  exec (fetchBusinesses_resume o)
       {| page := page w; log := log w; inflight := remove_nth n (inflight w) |}.
Proof.
  intros H. unfold step. rewrite H. now rewrite exec_seq.
Qed.

Lemma step_settle_categories (w : world) (n : nat) (o : outcome (list CategoryRow.t)) :
  nth_error (inflight w) n = Some AwaitCategories ->
  step w (Settled n (CategoriesReply o)) =
  exec (fetchCategories_resume o)
       {| page := page w; log := log w; inflight := remove_nth n (inflight w) |}.
Proof.
  intros H. unfold step. rewrite H. now rewrite exec_seq.
Qed.

(** A filter change that is a change runs the filter effect on the page
    with the new filter value. *)
Lemma filter_change_world (set : M unit) (f : PageState -> PageState) (w : world) :
  set = modify f ->
  exec (set ;; filter_effect) w =
  exec filter_effect {| page := f (page w); log := log w; inflight := inflight w |}.
Proof.
  intros ->. now rewrite exec_seq.
Qed.

(** The filter effect extends the log, never touches the categories and
    parks business fetches only. *)
Lemma filter_effect_invariant (w : world) :
  invariant w -> invariant (exec filter_effect w).
Proof.
  intros [Ho Hp He Hb]. rewrite filter_effect_world.
  destruct (filtering (page w)).
  - rewrite fetchBusinesses_start_world.
    split; unfold parked_categories in *; cbn [page log inflight categories].
    + rewrite category_requests_app, Ho. unfold category_requests. cbn.
      now rewrite business_query_not_category.
    + rewrite count_occ_app. cbn. lia.
    + rewrite count_occ_app. cbn. rewrite Nat.add_0_r. exact He.
    + apply Forall_app. split; [exact Hb|].
      constructor; [exact I|].
      constructor; [right; now exists (page w) | constructor].
  - rewrite clear_results_world.
    split; unfold parked_categories in *; cbn [page log inflight categories].
    + rewrite category_requests_app, Ho. reflexivity.
    + exact Hp.
    + exact He.
    + apply Forall_app. split; [exact Hb|]. repeat constructor.
Qed.

Lemma invariant_frame (w : world) (p : PageState) :
  categories p = categories (page w) ->
  invariant w ->
  invariant {| page := p; log := log w; inflight := inflight w |}.
Proof.
  intros E [Ho Hp He Hb]. split; unfold parked_categories in *;
    cbn [page log inflight]; try assumption.
  now rewrite E.
Qed.

Lemma step_invariant (w : world) (ev : event) :
  invariant w -> invariant (step w ev).
Proof.
  intros I. destruct ev as [s | c | l | n r]; [cbn [step] .. |].
  - destruct (s =? searchTerm (page w)); [exact I|].
    rewrite (filter_change_world (setSearchTerm s) _ w eq_refl).
    apply filter_effect_invariant. now apply invariant_frame.
  - destruct (c =? selectedCategory (page w)); [exact I|].
    rewrite (filter_change_world (setSelectedCategory c) _ w eq_refl).
    apply filter_effect_invariant. now apply invariant_frame.
  - destruct (l =? locationFilter (page w)); [exact I|].
    rewrite (filter_change_world (setLocationFilter l) _ w eq_refl).
    apply filter_effect_invariant. now apply invariant_frame.
  - destruct (nth_error (inflight w) n) as [[|]|] eqn:N; destruct r as [o | o];
      try (unfold step; rewrite N; exact I).
    + (* the category fetch settles *)
      rewrite (step_settle_categories _ _ _ N).
      destruct I as [Ho Hp He Hb]. unfold parked_categories in *.
      pose proof (remove_nth_count pending_eq_dec _ _ _ AwaitCategories N) as C.
      destruct (pending_eq_dec AwaitCategories AwaitCategories); [|congruence].
      destruct (failure o) as [e'|] eqn:F.
      * rewrite (fetchCategories_resume_failure _ _ _ F).
        split; unfold parked_categories; cbn [page log inflight categories].
        -- rewrite category_requests_app, Ho. reflexivity.
        -- lia.
        -- intros; lia.
        -- apply Forall_app. split; [exact Hb|]. repeat constructor.
      * destruct (failure_none _ F) as [r [-> E]].
        rewrite (fetchCategories_resume_success _ _ E).
        split; unfold parked_categories; cbn [page log inflight categories].
        -- rewrite category_requests_app, Ho. reflexivity.
        -- lia.
        -- intros; lia.
        -- apply Forall_app. split; [exact Hb|]. repeat constructor.
    + (* a business fetch settles *)
      rewrite (step_settle_businesses _ _ _ N).
      destruct I as [Ho Hp He Hb]. unfold parked_categories in *.
      pose proof (remove_nth_count pending_eq_dec _ _ _ AwaitCategories N) as C.
      destruct (pending_eq_dec AwaitBusinesses AwaitCategories); [congruence|].
      destruct (failure o) as [e'|] eqn:F.
      * rewrite (fetchBusinesses_resume_failure _ _ _ F).
        split; unfold parked_categories; cbn [page log inflight categories].
        -- rewrite category_requests_app, Ho. reflexivity.
        -- lia.
        -- intros; apply He; lia.
        -- apply Forall_app. split; [exact Hb|]. repeat constructor.
      * destruct (failure_none _ F) as [r [-> E]].
        rewrite (fetchBusinesses_resume_success _ _ E).
        split; unfold parked_categories; cbn [page log inflight categories].
        -- rewrite category_requests_app, Ho. reflexivity.
        -- lia.
        -- intros; apply He; lia.
        -- apply Forall_app. split; [exact Hb|]. repeat constructor.
Qed.

Lemma mount_world :
  mount =
  {| page := mkPage [] [] false "" "all" "";
     log := [Request categories_query; SetBusinesses []; SetLoading false];
     inflight := [AwaitCategories] |}.
Proof. reflexivity. Qed.

Lemma mount_invariant : invariant mount.
Proof.
  rewrite mount_world. split; unfold parked_categories; cbn.
  - reflexivity.
  - lia.
  - reflexivity.
  - constructor; [now left|]. repeat constructor.
Qed.

Lemma fold_step_invariant (evs : list event) (w : world) :
  invariant w -> invariant (fold_left step evs w).
Proof.
  revert w. induction evs as [|ev evs IH]; intros w I; simpl.
  - exact I.
  - apply IH. now apply step_invariant.
Qed.

Lemma run_invariant (evs : list event) : invariant (run evs).
Proof. apply fold_step_invariant, mount_invariant. Qed.

(** ** Between two events *)

Lemma filtering_true_iff (p : PageState) :
  filtering p = true <->
  searchTerm p <> "" \/ selectedCategory p <> "all" \/ locationFilter p <> "".
Proof.
  unfold filtering. rewrite !orb_true_iff, !truthy_true, negb_true_iff.
  rewrite String.eqb_neq. tauto.
Qed.

Lemma filtering_false_iff (p : PageState) :
  filtering p = false <->
  searchTerm p = "" /\ selectedCategory p = "all" /\ locationFilter p = "".
Proof.
  unfold filtering. rewrite !orb_false_iff, !truthy_false, negb_false_iff.
  rewrite String.eqb_eq. tauto.
Qed.

Lemma business_requests_app (l1 l2 : list effect) :
  business_requests (l1 ++ l2) = business_requests l1 ++ business_requests l2.
Proof.
  unfold business_requests. now rewrite requests_app, filter_app.
Qed.

Lemma business_query_on_businesses (p : PageState) :
  (table (business_query p) =? "businesses") = true.
Proof.
  destruct (business_query_head p) as [-> _]. reflexivity.
Qed.

(** A callback that changes a filter value runs the filter effect on the
    page it leaves behind. *)
Lemma step_callback (w : world) (ev : event) :
  filter_values (after_callback ev (page w)) <> filter_values (page w) ->
  step w ev =
  exec filter_effect
       {| page := after_callback ev (page w); log := log w; inflight := inflight w |}.
Proof.
  unfold filter_values. intros D.
  destruct ev as [s | c | l | n r]; cbn [step after_callback] in *.
  - destruct (String.eqb_spec s (searchTerm (page w))) as [-> | _]; [now destruct D|].
    apply (filter_change_world (setSearchTerm s) _ w eq_refl).
  - destruct (String.eqb_spec c (selectedCategory (page w))) as [-> | _]; [now destruct D|].
    apply (filter_change_world (setSelectedCategory c) _ w eq_refl).
  - destruct (String.eqb_spec l (locationFilter (page w))) as [-> | _]; [now destruct D|].
    apply (filter_change_world (setLocationFilter l) _ w eq_refl).
  - now destruct D.
Qed.

Lemma filter_effect_transition (w : world) (p : PageState) :
  businesses p = businesses (page w) ->
  categories p = categories (page w) ->
  transition w (exec filter_effect
                  {| page := p; log := log w; inflight := inflight w |}).
Proof.
  intros B C. rewrite filter_effect_world. cbn [page].
  destruct (filtering p).
  - rewrite fetchBusinesses_start_world. exact (t_fetch w p B C).
  - rewrite clear_results_world. exact (t_clear w p C).
Qed.

Lemma step_transition (w : world) (ev : event) : transition w (step w ev).
Proof.
  destruct ev as [s | c | l | n r]; [cbn [step] .. |].
  - destruct (s =? searchTerm (page w)); [apply t_idle|].
    rewrite (filter_change_world (setSearchTerm s) _ w eq_refl).
    now apply filter_effect_transition.
  - destruct (c =? selectedCategory (page w)); [apply t_idle|].
    rewrite (filter_change_world (setSelectedCategory c) _ w eq_refl).
    now apply filter_effect_transition.
  - destruct (l =? locationFilter (page w)); [apply t_idle|].
    rewrite (filter_change_world (setLocationFilter l) _ w eq_refl).
    now apply filter_effect_transition.
  - destruct (nth_error (inflight w) n) as [[|]|] eqn:N; destruct r as [o | o];
      try (unfold step; rewrite N; apply t_idle).
    + rewrite (step_settle_categories _ _ _ N).
      destruct (failure o) as [e|] eqn:F.
      * rewrite (fetchCategories_resume_failure _ _ _ F). exact (t_categories_failed w n e N).
      * destruct (failure_none _ F) as [r [-> E]].
        rewrite (fetchCategories_resume_success _ _ E).
        exact (t_categories_stored w n _ N).
    + rewrite (step_settle_businesses _ _ _ N).
      destruct (failure o) as [e|] eqn:F.
      * rewrite (fetchBusinesses_resume_failure _ _ _ F). exact (t_businesses_failed w n e N).
      * destruct (failure_none _ F) as [r [-> E]].
        rewrite (fetchBusinesses_resume_success _ _ E).
        exact (t_businesses_stored w n _ N).
Qed.

Lemma transition_accounting (w w' : world) :
  transition w w' -> accounting w -> accounting w'.
Proof.
  intros T [L A]. unfold parked_businesses in *.
  destruct T as [ | p B C | p C | n e N | n names N | n e N | n rows N];
    try (pose proof (remove_nth_count pending_eq_dec _ _ _ AwaitBusinesses N) as R;
         cbn in R);
    split; unfold parked_businesses;
    cbn [page log inflight loading];
    rewrite ?toasts_app, ?business_requests_app, ?length_app, ?count_occ_app;
    try (intros; discriminate); try (intros H; specialize (L H)); try lia.
  all: try intros _; unfold business_requests in *;
    cbn -[business_query] in *; rewrite ?business_query_on_businesses;
    cbn -[business_query] in *; lia.
Qed.

Lemma mount_accounting : accounting mount.
Proof.
  rewrite mount_world. split; unfold parked_businesses; cbn; [discriminate | lia].
Qed.

Lemma run_accounting (evs : list event) : accounting (run evs).
Proof.
  unfold run. generalize mount_accounting. generalize mount.
  induction evs as [|ev evs IH]; intros w A; simpl; [exact A|].
  apply IH. eapply transition_accounting; [apply step_transition | exact A].
Qed.

Lemma NoDup_map_injective {A B : Type} (f : A -> B) (g : B -> A) (l : list A) :
  (forall x, g (f x) = x) -> NoDup l -> NoDup (map f l).
Proof.
  intros Hg. induction 1 as [|x l Hx Hl IH]; simpl; constructor; [|exact IH].
  intros Hin. apply in_map_iff in Hin. destruct Hin as [y [E Hy]].
  apply (f_equal g) in E. rewrite !Hg in E. now subst.
Qed.

Lemma after_callback_keeps (ev : event) (p : PageState) :
  businesses (after_callback ev p) = businesses p /\
  categories (after_callback ev p) = categories p.
Proof. destruct ev; split; reflexivity. Qed.

Lemma callback_fetch_world (w : world) (ev : event) :
  filter_values (after_callback ev (page w)) <> filter_values (page w) ->
  filtering (after_callback ev (page w)) = true ->
  step w ev =
  {| page := mkPage (businesses (page w)) (categories (page w)) true
                    (searchTerm (after_callback ev (page w)))
                    (selectedCategory (after_callback ev (page w)))
                    (locationFilter (after_callback ev (page w)));
     log := log w ++ [SetLoading true;
                      Request (business_query (after_callback ev (page w)))];
     inflight := inflight w ++ [AwaitBusinesses] |}.
Proof.
  intros D F. rewrite (step_callback _ _ D), filter_effect_world.
  cbn [page]. rewrite F, fetchBusinesses_start_world. cbn [page log inflight].
  destruct (after_callback_keeps ev (page w)) as [-> ->]. reflexivity.
Qed.

Lemma callback_clear_world (w : world) (ev : event) :
  filter_values (after_callback ev (page w)) <> filter_values (page w) ->
  filtering (after_callback ev (page w)) = false ->
  step w ev =
  {| page := mkPage [] (categories (page w)) false
                    (searchTerm (after_callback ev (page w)))
                    (selectedCategory (after_callback ev (page w)))
                    (locationFilter (after_callback ev (page w)));
     log := log w ++ [SetBusinesses []; SetLoading false];
     inflight := inflight w |}.
Proof.
  intros D F. rewrite (step_callback _ _ D), filter_effect_world.
  cbn [page]. rewrite F, clear_results_world. cbn [page log inflight].
  destruct (after_callback_keeps ev (page w)) as [_ ->]. reflexivity.
Qed.

Lemma remove_nth_length {A : Type} (n : nat) (l : list A) :
  List.length (remove_nth n l) <= List.length l.
Proof.
  revert n. induction l as [|a l IH]; intros [|n]; simpl; try lia.
  specialize (IH n). lia.
Qed.

(** What a settling request leaves alone. *)
Lemma settled_frame (w : world) (n : nat) (r : reply) :
  let w' := step w (Settled n r) in
  requests (log w') = requests (log w) /\
  filter_values (page w') = filter_values (page w) /\
  List.length (inflight w') <= List.length (inflight w) /\
  match r with
  | CategoriesReply _ =>
      businesses (page w') = businesses (page w) /\
      loading (page w') = loading (page w)
  | BusinessesReply _ => categories (page w') = categories (page w)
  end.
Proof.
  pose proof (remove_nth_length n (inflight w)) as Len.
  destruct (nth_error (inflight w) n) as [[|]|] eqn:N; destruct r as [o | o];
    try (unfold step; rewrite N; cbn zeta; repeat split; lia).
  - rewrite (step_settle_categories _ _ _ N).
    destruct (failure o) as [e|] eqn:F.
    + rewrite (fetchCategories_resume_failure _ _ _ F).
      cbn [page log inflight]. rewrite requests_app. cbn. rewrite app_nil_r.
      repeat split. exact Len.
    + destruct (failure_none _ F) as [r [-> E]].
      rewrite (fetchCategories_resume_success _ _ E).
      cbn [page log inflight]. rewrite requests_app. cbn. rewrite app_nil_r.
      repeat split. exact Len.
  - rewrite (step_settle_businesses _ _ _ N).
    destruct (failure o) as [e|] eqn:F.
    + rewrite (fetchBusinesses_resume_failure _ _ _ F).
      cbn [page log inflight]. rewrite requests_app. cbn. rewrite app_nil_r.
      repeat split. exact Len.
    + destruct (failure_none _ F) as [r [-> E]].
      rewrite (fetchBusinesses_resume_success _ _ E).
      cbn [page log inflight]. rewrite requests_app. cbn. rewrite app_nil_r.
      repeat split. exact Len.
Qed.

(** ** The requests of the filter effect *)

Lemma filter_effect_fetch_log (w : world) :
  filtering (page w) = true ->
  log (exec filter_effect w) =
  log w ++ [SetLoading true; Request (business_query (page w))].
Proof.
  intros F. now rewrite filter_effect_world, F, fetchBusinesses_start_world.
Qed.

Lemma filter_effect_requests (w : world) :
  requests (log (exec filter_effect w)) =
  requests (log w) ++
  (if filtering (page w) then [business_query (page w)] else []).
Proof.
  rewrite filter_effect_world. destruct (filtering (page w)).
  - rewrite fetchBusinesses_start_world. cbn [log]. now rewrite requests_app.
  - rewrite clear_results_world. cbn [log]. now rewrite requests_app.
Qed.

(** ** The properties of the page *)


(** C2: when the search text is empty, the category is the sentinel "all"
    and the location text is empty, the filter effect sends no request,
    sets the business list to the empty list and then the loading flag to
    false. *)
Theorem default_filters_clear_results (w : world) :
  searchTerm (page w) = "" ->
  selectedCategory (page w) = "all" ->
  locationFilter (page w) = "" ->
  let w' := exec filter_effect w in
  log w' = log w ++ [SetBusinesses []; SetLoading false] /\
  requests (log w') = requests (log w) /\
  inflight w' = inflight w /\
  businesses (page w') = [] /\
  loading (page w') = false.
Proof.
  intros Hs Hc Hl w'. unfold w'. rewrite filter_effect_world.
  rewrite (filtering_default _ Hs Hc Hl).
  rewrite clear_results_world. cbn [page log inflight businesses loading].
  repeat split. rewrite requests_app. cbn. now rewrite app_nil_r.
Qed.

(** C3: when a business fetch fails (the request is rejected, or it
    resolves with an error), the error is logged, then one notification
    with title "Error", a description asking to try again and the
    destructive variant is raised, then the loading flag is cleared, in
    this order and with nothing else; the business list stays as it was. *)
Theorem failed_fetch_is_reported (w : world) (n : nat)
        (o : outcome (list Business.t)) (e : js_error) :
  nth_error (inflight w) n = Some AwaitBusinesses ->
  failure o = Some e ->
  let w' := step w (Settled n (BusinessesReply o)) in
  log w' = log w ++
    [ConsoleError "Error fetching businesses:" e;
     Toast {| title := "Error";
              toast_description := "Failed to fetch businesses. Please try again.";
              variant := "destructive" |};
     SetLoading false] /\
  List.length (toasts (log w')) = S (List.length (toasts (log w))) /\
  businesses (page w') = businesses (page w) /\
  loading (page w') = false.
Proof.
  intros N F w'. unfold w'. rewrite (step_settle_businesses _ _ _ N).
  rewrite (fetchBusinesses_resume_failure _ _ _ F).
  cbn [page log inflight businesses loading]. repeat split.
  rewrite toasts_app, length_app. cbn. lia.
Qed.

(** C4: when a business fetch succeeds, the business list becomes the
    returned rows whatever it held before (set once, then the loading flag
    is cleared); no rows, or a null row list, give the empty list. *)
Theorem successful_fetch_replaces_list (w : world) (n : nat)
        (r : response (list Business.t)) :
  nth_error (inflight w) n = Some AwaitBusinesses ->
  error r = None ->
  let w' := step w (Settled n (BusinessesReply (Fulfilled r))) in
  let rows := match data r with Some rows => rows | None => [] end in
  businesses (page w') = rows /\
  log w' = log w ++ [SetBusinesses rows; SetLoading false] /\
  (data r = Some [] \/ data r = None -> businesses (page w') = []).
Proof.
  intros N E w' rows. unfold w'. rewrite (step_settle_businesses _ _ _ N).
  rewrite (fetchBusinesses_resume_success _ _ E).
  cbn [page log inflight businesses loading]. repeat split.
  intros [D | D]; rewrite D; reflexivity.
Qed.

(** C5: the result area shows one of three things, tested in this order:
    while loading, six placeholder cards keyed 0 to 5; otherwise, when the
    business list has K > 0 entries, K result cards keyed by business id in
    list order; otherwise the empty-state message with its hint line. *)
Theorem render_three_way (p : PageState) :
  (loading p = true ->
   render_results p =
   [BusinessSkeleton 0; BusinessSkeleton 1; BusinessSkeleton 2;
    BusinessSkeleton 3; BusinessSkeleton 4; BusinessSkeleton 5]) /\
  (loading p = false -> businesses p <> [] ->
   render_results p =
   map (fun b => PopularBusinessCard (Business.id b) b) (businesses p) /\
   List.length (render_results p) = List.length (businesses p)) /\
  (loading p = false -> businesses p = [] ->
   render_results p =
   [EmptyState "No businesses found matching your criteria."
               "Try adjusting your search filters or browse all categories."]).
Proof.
  unfold render_results. split; [|split].
  - intros ->. reflexivity.
  - intros -> H. destruct (businesses p) as [|b bs]; [congruence|].
    split; [reflexivity|]. cbn [List.length Nat.ltb Nat.leb].
    now rewrite length_map.
  - intros -> ->. reflexivity.
Qed.

(** C6: when the selected category is not "all", the filter effect awaits
    the business query and that query has exactly one equality clause, on
    the category column against the normalized selected category; when it
    is "all", no request the effect sends has an equality clause. *)
Theorem category_clause (w : world) :
  (selectedCategory (page w) <> "all" ->
   let q := business_query (page w) in
   log (exec filter_effect w) = log w ++ [SetLoading true; Request q] /\
   eq_filters (filters q) =
   [Eq "category" (normalizeCategoryName (selectedCategory (page w)))]) /\
  (selectedCategory (page w) = "all" ->
   forall q, In q (requests (log (exec filter_effect w))) ->
             In q (requests (log w)) \/ eq_filters (filters q) = []).
Proof.
  split.
  - intros H q. split.
    + apply filter_effect_fetch_log, filtering_true_iff. right. now left.
    + unfold q. rewrite business_query_filters.
      unfold eq_filters, search_filters, category_filters, location_filters.
      apply String.eqb_neq in H. rewrite H.
      destruct (truthy (searchTerm (page w))), (truthy (locationFilter (page w)));
        reflexivity.
  - intros H q Hq. rewrite filter_effect_requests in Hq.
    apply in_app_or in Hq. destruct Hq as [Hq | Hq]; [now left | right].
    destruct (filtering (page w)); [|destruct Hq].
    destruct Hq as [<- | []]. rewrite business_query_filters.
    unfold eq_filters, search_filters, category_filters, location_filters.
    rewrite H.
    destruct (truthy (searchTerm (page w))), (truthy (locationFilter (page w)));
      reflexivity.
Qed.


(** C8: a step either sends nothing, or it sends exactly one request, the
    business query of the filter values the page then holds, behind the
    raised loading flag; so every request the page ever sends is the
    category query or such a business query.  A business query reads the
    businesses table, selects all columns, orders by rating descending, and
    carries the search, category and location clauses that are present, in
    this order, a row being selected when every one of them holds of it. *)
Theorem business_query_shape :
  (forall w ev,
     let w' := step w ev in
     requests (log w') = requests (log w) \/
     (log w' = log w ++ [SetLoading true; Request (business_query (page w'))] /\
      inflight w' = inflight w ++ [AwaitBusinesses])) /\
  requests (log mount) = [categories_query] /\
  (forall evs, Forall built_by_page (log (run evs))) /\
  (forall p,
     let q := business_query p in
     table q = "businesses" /\
     columns q = Some "*" /\
     ordering q = [("rating", false)] /\
     filters q =
       (if truthy (searchTerm p)
        then [Or (searchQuery (searchTerm p))] else []) ++
       (if negb (selectedCategory p =? "all")
        then [Eq "category" (normalizeCategoryName (selectedCategory p))] else []) ++
       (if truthy (locationFilter p)
        then [Or (location_clause (locationFilter p))] else []) /\
     forall b,
       selects q b =
       (if truthy (searchTerm p)
        then holds (Or (searchQuery (searchTerm p))) b else true) &&
       (if negb (selectedCategory p =? "all")
        then holds (Eq "category" (normalizeCategoryName (selectedCategory p))) b
        else true) &&
       (if truthy (locationFilter p)
        then holds (Or (location_clause (locationFilter p))) b else true)).
Proof.
  split; [|split; [|split]].
  - intros w ev w'. unfold w'.
    generalize (step_transition w ev). generalize (step w ev).
    intros w1 T.
    destruct T as [ | p B C | p C | n e N | n names N | n e N | n rows N];
      cbn [page log inflight]; rewrite ?requests_app; cbn [requests flat_map app];
      rewrite ?app_nil_r; try (now left).
    right. split; reflexivity.
  - reflexivity.
  - intros evs. apply run_invariant.
  - intros p q. destruct (business_query_head p) as [Ht [Hc Ho]].
    repeat split; try assumption.
    + apply business_query_filters.
    + intros b. unfold selects, q. rewrite business_query_filters.
      unfold search_filters, category_filters, location_filters.
      destruct (truthy (searchTerm p)), (negb (selectedCategory p =? "all")),
        (truthy (locationFilter p)); cbn [app forallb];
        rewrite ?andb_true_r, ?andb_true_l, ?andb_assoc; reflexivity.
Qed.

(** C9: whatever the filter control and the store do after the mount, the
    log holds exactly one request on the categories table, the one that
    selects the name column ordered by name ascending; when it succeeds the
    category list becomes the names of the returned rows; when it fails the
    error is logged, nothing else happens (no notification), and the
    category list is still empty. *)
Theorem categories_fetched_once (evs : list event) :
  let w := run evs in
  category_requests (log w) = [categories_query] /\
  (table categories_query = "business_categories" /\
   columns categories_query = Some "name" /\
   ordering categories_query = [("name", true)] /\
   filters categories_query = []) /\
  (forall n r,
     nth_error (inflight w) n = Some AwaitCategories ->
     error r = None ->
     categories (page (step w (Settled n (CategoriesReply (Fulfilled r))))) =
     match data r with Some rows => map CategoryRow.name rows | None => [] end) /\
  (forall n o e,
     nth_error (inflight w) n = Some AwaitCategories ->
     failure o = Some e ->
     let w' := step w (Settled n (CategoriesReply o)) in
     log w' = log w ++ [ConsoleError "Error fetching categories:" e] /\
     toasts (log w') = toasts (log w) /\
     categories (page w') = []).
Proof.
  intros w. pose proof (run_invariant evs) as [Ho Hp He Hb]. fold w in Ho, Hp, He, Hb.
  split; [exact Ho|]. split; [repeat split|]. split.
  - intros n r N E. rewrite (step_settle_categories _ _ _ N).
    now rewrite (fetchCategories_resume_success _ _ E).
  - intros n o e N F w'. unfold w'. rewrite (step_settle_categories _ _ _ N).
    rewrite (fetchCategories_resume_failure _ _ _ F).
    cbn [page log inflight]. repeat split.
    + rewrite toasts_app. cbn. now rewrite app_nil_r.
    + apply He. unfold parked_categories in *.
      pose proof (remove_nth_count pending_eq_dec _ _ _ AwaitCategories N) as C.
      destruct (pending_eq_dec AwaitCategories AwaitCategories); [lia | congruence].
Qed.

(** C10: the loading flag starts true, so the first render shows the six
    placeholder cards although nothing has been requested; starting the
    category fetch leaves it true; it is the first run of the filter
    effect, with the filters at their defaults, that empties the list and
    makes the flag false, after which the empty-state message shows. *)
Theorem first_render_shows_placeholders :
  loading (page initial_world) = true /\
  log initial_world = [] /\
  render_results (page initial_world) = map BusinessSkeleton [0; 1; 2; 3; 4; 5] /\
  loading (page (exec mount_effect initial_world)) = true /\
  mount = exec filter_effect (exec mount_effect initial_world) /\
  log mount = [Request categories_query; SetBusinesses []; SetLoading false] /\
  businesses (page mount) = [] /\
  loading (page mount) = false /\
  render_results (page mount) =
  [EmptyState "No businesses found matching your criteria."
              "Try adjusting your search filters or browse all categories."].
Proof.
  repeat split.
Qed.

(** ** Further properties of the page *)

(** X1: a callback that changes a filter value and leaves at least one
    filter set starts exactly one business fetch, built from the new
    filter values: the loading flag is raised, one request is sent and one
    fetch is parked; the old list is kept but the placeholders show. *)
Theorem filter_change_starts_one_fetch (w : world) (ev : event) :
  let p := after_callback ev (page w) in
  filter_values p <> filter_values (page w) ->
  searchTerm p <> "" \/ selectedCategory p <> "all" \/ locationFilter p <> "" ->
  step w ev =
  {| page := mkPage (businesses (page w)) (categories (page w)) true
                    (searchTerm p) (selectedCategory p) (locationFilter p);
     log := log w ++ [SetLoading true; Request (business_query p)];
     inflight := inflight w ++ [AwaitBusinesses] |} /\
  List.length (render_results (page (step w ev))) = 6.
Proof.
  intros p D F. apply filtering_true_iff in F.
  rewrite (callback_fetch_world _ _ D F). split; reflexivity.
Qed.

(** X2: a callback that changes a filter value and leaves all three
    filters at their defaults sends nothing: the list is emptied, the
    loading flag lowered, and the empty-state message shows, whatever was
    displayed before; fetches in flight stay in flight. *)
Theorem filter_change_to_defaults_clears (w : world) (ev : event) :
  let p := after_callback ev (page w) in
  filter_values p <> filter_values (page w) ->
  searchTerm p = "" -> selectedCategory p = "all" -> locationFilter p = "" ->
  step w ev =
  {| page := mkPage [] (categories (page w)) false "" "all" "";
     log := log w ++ [SetBusinesses []; SetLoading false];
     inflight := inflight w |} /\
  render_results (page (step w ev)) =
  [EmptyState "No businesses found matching your criteria."
              "Try adjusting your search filters or browse all categories."].
Proof.
  intros p D Hs Hc Hl.
  assert (F : filtering p = false) by now apply filtering_false_iff.
  rewrite (callback_clear_world _ _ D F). fold p. rewrite Hs, Hc, Hl.
  split; reflexivity.
Qed.

(** X3: whatever happened since the mount, if the loading flag is up (the
    placeholders show) then a business fetch is in flight, so that its
    settling will lower the flag. *)
Theorem placeholders_imply_fetch_in_flight (evs : list event) :
  loading (page (run evs)) = true ->
  In AwaitBusinesses (inflight (run evs)).
Proof.
  intros H. destruct (run_accounting evs) as [L _].
  specialize (L H). unfold parked_businesses in L.
  apply (count_occ_In pending_eq_dec). lia.
Qed.

(** X4: a step raises at most one notification, and it raises one only
    when it ends a business fetch that was in flight, without sending a
    request; so, whatever happened since the mount, the notifications
    raised plus the business fetches still in flight never outnumber the
    business requests sent. *)
Theorem notifications_bounded_by_fetches :
  (forall w ev,
     let w' := step w ev in
     toasts (log w') = toasts (log w) \/
     (toasts (log w') = toasts (log w) ++ [fetch_error_toast] /\
      parked_businesses w = S (parked_businesses w') /\
      requests (log w') = requests (log w))) /\
  (forall evs,
     List.length (toasts (log (run evs))) + parked_businesses (run evs) <=
     List.length (business_requests (log (run evs)))).
Proof.
  split.
  - intros w ev w'. unfold w'.
    generalize (step_transition w ev). generalize (step w ev).
    intros w1 T. unfold parked_businesses.
    destruct T as [ | p B C | p C | n e N | n names N | n e N | n rows N];
      try (pose proof (remove_nth_count pending_eq_dec _ _ _ AwaitBusinesses N) as R;
           cbn in R);
      cbn [page log inflight]; rewrite ?toasts_app, ?requests_app;
      cbn [toasts requests flat_map app]; rewrite ?app_nil_r; try (now left).
    right. now repeat split.
  - intros evs. apply run_accounting.
Qed.

(** X5: a settling request, whichever it is and however it settles, sends
    no request, leaves the three filter values alone and parks nothing. *)
Theorem reply_never_requests (w : world) (n : nat) (r : reply) :
  requests (log (step w (Settled n r))) = requests (log w) /\
  filter_values (page (step w (Settled n r))) = filter_values (page w) /\
  List.length (inflight (step w (Settled n r))) <= List.length (inflight w).
Proof.
  destruct (settled_frame w n r) as [R [F [L _]]]. now repeat split.
Qed.

(** X6: the category reply changes neither the business list nor the
    loading flag, hence not the result area; a business reply does not
    change the category list. *)
Theorem fetches_do_not_interfere (w : world) (n : nat) :
  (forall o,
     let w' := step w (Settled n (CategoriesReply o)) in
     businesses (page w') = businesses (page w) /\
     loading (page w') = loading (page w) /\
     render_results (page w') = render_results (page w)) /\
  (forall o,
     categories (page (step w (Settled n (BusinessesReply o)))) =
     categories (page w)).
Proof.
  split; intros o.
  - destruct (settled_frame w n (CategoriesReply o)) as [_ [_ [_ [B L]]]].
    cbn zeta. repeat split; try assumption.
    unfold render_results. now rewrite B, L.
  - now destruct (settled_frame w n (BusinessesReply o)) as [_ [_ [_ C]]].
Qed.

(** X7: a reply that comes after the filters were cleared still fills the
    list: search for a non-empty text, clear the search, let the fetch
    succeed; the filters are at their defaults and the rows are shown. *)
Theorem late_reply_after_clearing (s : string) (rows : list Business.t) :
  s <> "" ->
  let w := run [SearchChange s; SearchChange "";
                Settled 1 (BusinessesReply (Fulfilled (mkResponse (Some rows) None)))] in
  filter_values (page w) = ("", "all", "") /\
  businesses (page w) = rows /\
  loading (page w) = false /\
  inflight w = [AwaitCategories].
Proof.
  intros Hs. unfold run. cbn [fold_left]. rewrite mount_world.
  on_literal_world callback_fetch_world;
    [ | unfold filter_values; cbn; congruence
      | apply filtering_true_iff; left; exact Hs ].
  cbn [page log inflight after_callback searchTerm selectedCategory locationFilter
       businesses categories loading app].
  on_literal_world callback_clear_world;
    [ | unfold filter_values; cbn; congruence | reflexivity ].
  cbn [page log inflight after_callback searchTerm selectedCategory locationFilter
       businesses categories loading app].
  rewrite step_settle_businesses by reflexivity.
  rewrite fetchBusinesses_resume_success by reflexivity.
  repeat split.
Qed.

(** X8: with two searches in flight, the reply to the older one is shown
    as the result of the newer one: it fills the list and lowers the
    loading flag although the newer fetch is still in flight. *)
Theorem older_reply_shown_for_newer_search (s1 s2 : string)
        (rows : list Business.t) :
  s1 <> "" -> s2 <> "" -> s1 <> s2 ->
  let w := run [SearchChange s1; SearchChange s2;
                Settled 1 (BusinessesReply (Fulfilled (mkResponse (Some rows) None)))] in
  searchTerm (page w) = s2 /\
  businesses (page w) = rows /\
  loading (page w) = false /\
  inflight w = [AwaitCategories; AwaitBusinesses].
Proof.
  intros H1 H2 D. unfold run. cbn [fold_left]. rewrite mount_world.
  on_literal_world callback_fetch_world;
    [ | unfold filter_values; cbn; congruence
      | apply filtering_true_iff; left; exact H1 ].
  cbn [page log inflight after_callback searchTerm selectedCategory locationFilter
       businesses categories loading app].
  on_literal_world callback_fetch_world;
    [ | unfold filter_values; cbn; congruence
      | apply filtering_true_iff; left; exact H2 ].
  cbn [page log inflight after_callback searchTerm selectedCategory locationFilter
       businesses categories loading app].
  rewrite step_settle_businesses by reflexivity.
  rewrite fetchBusinesses_resume_success by reflexivity.
  repeat split.
Qed.

(** X9: the result area is never empty, and the keys of its nodes are
    pairwise distinct whenever the identifiers of the listed businesses
    are. *)
Theorem result_area_keys (p : PageState) :
  1 <= List.length (render_results p) /\
  (NoDup (map Business.id (businesses p)) ->
   NoDup (map vnode_key (render_results p))).
Proof.
  unfold render_results. destruct (loading p).
  - split; [cbn; lia | intros _].
    rewrite map_map. cbn [vnode_key].
    apply (NoDup_map_injective _ (fun k => match k with
                                           | Some (inl n) => n
                                           | _ => 0
                                           end)); [reflexivity|].
    apply seq_NoDup.
  - destruct (businesses p) as [|b bs] eqn:E.
    + split; [cbn; lia | intros _]. cbn. constructor; [intros [] | constructor].
    + cbn [List.length Nat.ltb Nat.leb]. split; [cbn; lia|].
      intros ND. rewrite map_map. cbn [vnode_key].
      rewrite <- (map_map Business.id (fun k => Some (inr k))).
      apply (NoDup_map_injective _ (fun k => match k with
                                             | Some (inr i) => i
                                             | _ => ""
                                             end)); [reflexivity | exact ND].
Qed.

(** X10: the location text goes into the clause unescaped: a text that
    contains the end of a pattern, a comma and the start of a condition on
    any column yields the very string of a disjunction that also tests
    that column. *)
Theorem location_text_not_escaped (x column y : string) :
  location_clause (x ++ "%," ++ column ++ ".ilike.%" ++ y) =
  render_disjunction
    [Ilike "city" ("%" ++ x ++ "%")%string;
     Ilike column ("%" ++ y ++ "%")%string;
     Ilike "state" ("%" ++ x ++ "%")%string;
     Ilike column ("%" ++ y ++ "%")%string].
Proof.
  unfold location_clause, render_disjunction, render_condition.
  cbn [map String.concat].
  repeat (rewrite !append_assoc || cbn [String.append]).
  reflexivity.
Qed.

Lemma transition_category_outcome (w w' : world) :
  transition w w' ->
  category_outcomes w + parked_categories w = 1 ->
  category_outcomes w' + parked_categories w' = 1.
Proof.
  unfold category_outcomes, parked_categories. intros T H.
  destruct T as [ | p B C | p C | n e N | n names N | n e N | n rows N];
    try (pose proof (remove_nth_count pending_eq_dec _ _ _ AwaitCategories N) as R;
         cbn in R);
    cbn [page log inflight];
    rewrite ?filter_app, ?length_app, ?count_occ_app; cbn; lia.
Qed.

Lemma run_category_outcome (evs : list event) :
  category_outcomes (run evs) + parked_categories (run evs) = 1.
Proof.
  unfold run. assert (H : category_outcomes mount + parked_categories mount = 1)
    by (rewrite mount_world; reflexivity).
  revert H. generalize mount.
  induction evs as [|ev evs IH]; intros w H; simpl; [exact H|].
  apply IH. eapply transition_category_outcome; [apply step_transition | exact H].
Qed.

(** X11: whatever happened since the mount, the category fetch is in
    exactly one of three states: still in flight, answered with the list
    stored once, or failed with the failure logged once; the list is never
    stored twice and nothing is stored after a failure. *)
Theorem category_fetch_ends_once (evs : list event) :
  let w := run evs in
  List.length (List.filter is_category_store (log w)) +
  List.length (List.filter is_category_failure (log w)) +
  parked_categories w = 1.
Proof.
  apply run_category_outcome.
Qed.

End FindShops.

(** ** The properties on the sample data *)



Lemma default_filters_clear_results_witness :
  businesses (page cleared_world) = [bakery] /\
  businesses (page (exec (filter_effect sample_expand sample_normalize) cleared_world)) = [] /\
  loading (page (exec (filter_effect sample_expand sample_normalize) cleared_world)) = false /\
  requests (log (exec (filter_effect sample_expand sample_normalize) cleared_world)) = [].
Proof.
  pose proof (default_filters_clear_results sample_expand sample_normalize
                cleared_world eq_refl eq_refl eq_refl) as [_ [R [_ [B L]]]].
  split; [reflexivity|]. split; [exact B|]. split; [exact L | exact R].
Defined.

Lemma failed_fetch_is_reported_witness :
  let w' := step sample_expand sample_normalize fetching_world (Settled 1 (BusinessesReply (Rejected (JsError "offline")))) in
  log w' =
    [ConsoleError "Error fetching businesses:" (JsError "offline");
     Toast {| title := "Error";
              toast_description := "Failed to fetch businesses. Please try again.";
              variant := "destructive" |};
     SetLoading false] /\
  businesses (page w') = [bakery] /\
  loading (page w') = false.
Proof.
  pose proof (failed_fetch_is_reported sample_expand sample_normalize fetching_world 1
                (Rejected (JsError "offline")) (JsError "offline")
                eq_refl eq_refl) as [L [_ [B F]]].
  split; [exact L|]. split; [exact B | exact F].
Defined.

Lemma successful_fetch_replaces_list_witness :
  businesses (page (step sample_expand sample_normalize fetching_world
                      (Settled 1 (BusinessesReply
                         (Fulfilled (mkResponse (Some [coffee_shop]) None)))))) =
  [coffee_shop] /\
  businesses (page (step sample_expand sample_normalize fetching_world
                      (Settled 1 (BusinessesReply
                         (Fulfilled (mkResponse None None)))))) = [].
Proof.
  split.
  - exact (proj1 (successful_fetch_replaces_list sample_expand sample_normalize fetching_world 1
                    (mkResponse (Some [coffee_shop]) None) eq_refl eq_refl)).
  - exact (proj1 (successful_fetch_replaces_list sample_expand sample_normalize fetching_world 1
                    (mkResponse None None) eq_refl eq_refl)).
Defined.

Lemma render_three_way_witness :
  List.length (render_results (page fetching_world)) = 6 /\
  render_results (mkPage [coffee_shop; bakery] [] false "tx" "all" "") =
    [PopularBusinessCard "b1" coffee_shop; PopularBusinessCard "b2" bakery] /\
  render_results (page coffee_world) =
    [EmptyState "No businesses found matching your criteria."
                "Try adjusting your search filters or browse all categories."].
Proof.
  split; [|split].
  - now rewrite (proj1 (render_three_way (page fetching_world)) eq_refl).
  - apply (proj1 (proj2 (render_three_way
                           (mkPage [coffee_shop; bakery] [] false "tx" "all" ""))));
      [reflexivity | discriminate].
  - apply (proj2 (proj2 (render_three_way (page coffee_world)))); reflexivity.
Defined.

Lemma category_clause_witness :
  log (exec (filter_effect sample_expand sample_normalize) austin_world) =
    [SetLoading true;
     Request (business_query sample_expand sample_normalize (page austin_world))] /\
  eq_filters (filters (business_query sample_expand sample_normalize
                         (page austin_world))) =
    [Eq "category" "restaurant"] /\
  eq_filters (filters (business_query sample_expand sample_normalize
                         (page coffee_world))) = [].
Proof.
  assert (H : selectedCategory (page austin_world) <> "all") by discriminate.
  destruct (proj1 (category_clause sample_expand sample_normalize austin_world) H)
    as [L E].
  split; [exact L|]. split; [exact E|].
  destruct (proj2 (category_clause sample_expand sample_normalize coffee_world)
              eq_refl
              (business_query sample_expand sample_normalize (page coffee_world))
              (or_introl eq_refl))
    as [[] | E0].
  exact E0.
Defined.



Lemma categories_fetched_once_witness :
  let w := run sample_expand sample_normalize
               [SearchChange "coffee"; LocationChange "Austin"] in
  List.length (category_requests (log w)) = 1 /\
  categories (page (step sample_expand sample_normalize w (Settled 0 (CategoriesReply
     (Fulfilled (mkResponse (Some [CategoryRow.mk "Bakeries"; CategoryRow.mk "Cafes"])
                            None)))))) = ["Bakeries"; "Cafes"] /\
  categories (page (step sample_expand sample_normalize w (Settled 0 (CategoriesReply
     (Rejected (JsError "offline")))))) = [] /\
  toasts (log (step sample_expand sample_normalize w (Settled 0 (CategoriesReply
     (Rejected (JsError "offline")))))) = [].
Proof.
  intros w.
  pose proof (categories_fetched_once sample_expand sample_normalize
                [SearchChange "coffee"; LocationChange "Austin"])
    as [Once [_ [Ok Ko]]].
  fold w in Once, Ok, Ko.
  split; [now rewrite Once|]. split.
  - exact (Ok 0 (mkResponse (Some [CategoryRow.mk "Bakeries"; CategoryRow.mk "Cafes"])
                            None) eq_refl eq_refl).
  - destruct (Ko 0 (Rejected (JsError "offline")) (JsError "offline")
                 eq_refl eq_refl) as [_ [T C]].
    split; [exact C | exact T].
Defined.

(** A session on the sample data: the user searches, the store answers the
    business fetch before the category fetch, and the latter fails. *)
Example sample_session :
  let w := run sample_expand sample_normalize
             [SearchChange "coffee";
              Settled 1 (BusinessesReply (Fulfilled (mkResponse (Some [coffee_shop]) None)));
              Settled 0 (CategoriesReply (Rejected (JsError "offline")))] in
  page w = mkPage [coffee_shop] [] false "coffee" "all" "" /\
  inflight w = [] /\
  log w =
    [Request (categories_query);
     SetBusinesses []; SetLoading false;
     SetLoading true;
     Request (business_query sample_expand sample_normalize
                (mkPage [] [] true "coffee" "all" ""));
     SetBusinesses [coffee_shop]; SetLoading false;
     ConsoleError "Error fetching categories:" (JsError "offline")] /\
  render_results (page w) = [PopularBusinessCard "b1" coffee_shop].
Proof. repeat split. Qed.

(** The race of overlapping fetches: the answer to an older search that
    settles last is the one displayed. *)
Example sample_race :
  let w := run sample_expand sample_normalize
             [SearchChange "rise";
              SearchChange "coffee";
              Settled 2 (BusinessesReply (Fulfilled (mkResponse (Some [coffee_shop]) None)));
              Settled 1 (BusinessesReply (Fulfilled (mkResponse (Some [bakery]) None)))] in
  searchTerm (page w) = "coffee" /\ businesses (page w) = [bakery].
Proof. repeat split. Qed.

(** ** The further properties on the sample data *)

Lemma filter_change_starts_one_fetch_witness :
  step sample_expand sample_normalize coffee_world (LocationChange "Austin") =
  {| page := mkPage [] ["Restaurants"] true "coffee" "all" "Austin";
     log := [SetLoading true;
             Request (business_query sample_expand sample_normalize
                        (mkPage [] ["Restaurants"] false "coffee" "all" "Austin"))];
     inflight := [AwaitBusinesses] |}.
Proof.
  refine (proj1 (filter_change_starts_one_fetch sample_expand sample_normalize
                   coffee_world (LocationChange "Austin") _ _)).
  - discriminate.
  - left. discriminate.
Defined.

Lemma filter_change_to_defaults_clears_witness :
  step sample_expand sample_normalize fetching_world (SearchChange "") =
  {| page := mkPage [] [] false "" "all" "";
     log := [SetBusinesses []; SetLoading false];
     inflight := [AwaitCategories; AwaitBusinesses] |}.
Proof.
  refine (proj1 (filter_change_to_defaults_clears sample_expand sample_normalize
                   fetching_world (SearchChange "") _ eq_refl eq_refl eq_refl)).
  discriminate.
Defined.

Lemma placeholders_imply_fetch_in_flight_witness :
  loading (page (run sample_expand sample_normalize [SearchChange "coffee"])) = true /\
  In AwaitBusinesses
     (inflight (run sample_expand sample_normalize [SearchChange "coffee"])).
Proof.
  split; [reflexivity|].
  exact (placeholders_imply_fetch_in_flight sample_expand sample_normalize
           [SearchChange "coffee"] eq_refl).
Defined.

Lemma late_reply_after_clearing_witness :
  let w := run sample_expand sample_normalize
             [SearchChange "coffee"; SearchChange "";
              Settled 1 (BusinessesReply
                           (Fulfilled (mkResponse (Some [coffee_shop]) None)))] in
  filter_values (page w) = ("", "all", "") /\ businesses (page w) = [coffee_shop].
Proof.
  assert (H : "coffee" <> "") by discriminate.
  destruct (late_reply_after_clearing sample_expand sample_normalize
              "coffee" [coffee_shop] H) as [F [B _]].
  split; [exact F | exact B].
Defined.

Lemma older_reply_shown_for_newer_search_witness :
  let w := run sample_expand sample_normalize
             [SearchChange "coffee"; SearchChange "rise";
              Settled 1 (BusinessesReply
                           (Fulfilled (mkResponse (Some [coffee_shop]) None)))] in
  searchTerm (page w) = "rise" /\
  businesses (page w) = [coffee_shop] /\
  loading (page w) = false /\
  inflight w = [AwaitCategories; AwaitBusinesses].
Proof.
  assert (H1 : "coffee" <> "") by discriminate.
  assert (H2 : "rise" <> "") by discriminate.
  assert (D : "coffee" <> "rise") by discriminate.
  exact (older_reply_shown_for_newer_search sample_expand sample_normalize
           "coffee" "rise" [coffee_shop] H1 H2 D).
Defined.

Lemma result_area_keys_witness :
  NoDup (map Business.id [coffee_shop; bakery]) /\
  map vnode_key (render_results (mkPage [coffee_shop; bakery] [] false "tx" "all" "")) =
    [Some (inr "b1"); Some (inr "b2")] /\
  NoDup (map vnode_key
           (render_results (mkPage [coffee_shop; bakery] [] false "tx" "all" ""))).
Proof.
  assert (ND : NoDup (map Business.id [coffee_shop; bakery])).
  { constructor; [intros [E | []]; discriminate|].
    constructor; [intros []|]. constructor. }
  split; [exact ND|]. split; [reflexivity|].
  exact (proj2 (result_area_keys (mkPage [coffee_shop; bakery] [] false "tx" "all" ""))
               ND).
Defined.
